(** * Bitbucket webhooks: the event dispatcher

    A shallow embedding of the [bitbucket] package: the [Webhook] type with
    its handler registry, the package-level [eventTypeMap], and the methods
    [ServeHTTP], [Handle] and [badRequest].

    Go maps are finite maps ([gmap]); a nil map is [None].  The effects of
    [ServeHTTP] (map reads, the allocation of the payload, the JSON decoder,
    the call of the handler, the two loggers and the response writer) are
    threaded through a state monad over a [World], which also keeps the
    chronological list of the steps that were taken. *)

From Stdlib Require Import Ascii String.
From stdpp Require Import gmap strings list fin_maps.

Open Scope Z_scope.

(** ** Payload types (types.go)

    The seventeen struct types that occur as values of [eventTypeMap].  Only
    their identity matters to the dispatcher: it hands [reflect.TypeOf] of
    the table entry to [reflect.New]. *)
Inductive EventType : Set :=
  | RepoPushEvent
  | RepoForkEvent
  | RepoCommitCommentCreatedEvent
  | RepoCommitStatusCreatedEvent
  | RepoCommitStatusUpdatedEvent
  | IssueCreatedEvent
  | IssueUpdatedEvent
  | IssueCommentCreatedEvent
  | PullRequestCreatedEvent
  | PullRequestUpdatedEvent
  | PullRequestApprovedEvent
  | PullRequestApprovalRemovedEvent
  | PullRequestMergedEvent
  | PullRequestDeclinedEvent
  | PullRequestCommentCreatedEvent
  | PullRequestCommentUpdatedEvent
  | PullRequestCommentDeletedEvent.

(** map of webhook events to the payload type *)
Definition eventTypeMap : gmap string EventType :=
  list_to_map
    [ ("repo:push", RepoPushEvent);
      ("repo:fork", RepoForkEvent);
      ("repo:commit_comment_created", RepoCommitCommentCreatedEvent);
      ("repo:commit_status_created", RepoCommitStatusCreatedEvent);
      ("repo:commit_status_updated", RepoCommitStatusUpdatedEvent);
      ("issue:created", IssueCreatedEvent);
      ("issue:updated", IssueUpdatedEvent);
      ("issue:comment_created", IssueCommentCreatedEvent);
      ("pullrequest:created", PullRequestCreatedEvent);
      ("pullrequest:updated", PullRequestUpdatedEvent);
      ("pullrequest:approved", PullRequestApprovedEvent);
      ("pullrequest:unapproved", PullRequestApprovalRemovedEvent);
      ("pullrequest:fulfilled", PullRequestMergedEvent);
      ("pullrequest:rejected", PullRequestDeclinedEvent);
      ("pullrequest:comment_created", PullRequestCommentCreatedEvent);
      ("pullrequest:comment_updated", PullRequestCommentUpdatedEvent);
      ("pull_request:comment_deleted", PullRequestCommentDeletedEvent) ].

(** ** The parts of Go's library the package calls *)

(** A Go [error]: [None] is nil, [Some s] an error whose [Error()] is [s]. *)
Definition error := option string.

(** What a Go call can do besides returning: panic. *)
Inductive Outcome (A : Type) : Type :=
  | Returns (a : A)
  | Panics (msg : string).
Arguments Returns {A} a.
Arguments Panics {A} msg.

Module GoMap.
(** [m[k]] in the comma-ok form; reading a nil map finds nothing. *)
Definition index {V} (m : option (gmap string V)) (k : string) : option V :=
  match m with
  | None => None
  | Some m => m !! k
  end.

(** [m[k] = v]; writing to a nil map panics. *)
Definition assign {V} (m : option (gmap string V)) (k : string) (v : V)
  : Outcome (option (gmap string V)) :=
  match m with
  | None => Panics "assignment to entry in nil map"
  | Some m => Returns (Some (<[k := v]> m))
  end.
End GoMap.

(** [fmt.Sprintf] for the verb the package uses, [%s], over arguments that
    are strings (or errors, printed through [Error()]). *)
Fixpoint Sprintf (format : string) (a : list string) : string :=
  match format with
  | EmptyString => EmptyString
  | String c rest =>
      match rest with
      | String c' rest' =>
          if (Ascii.eqb c "%"%char && Ascii.eqb c' "s"%char)%bool then
            match a with
            | x :: a' => x +:+ Sprintf rest' a'
            | [] => "%!s(MISSING)" +:+ Sprintf rest' []
            end
          else String c (Sprintf rest a)
      | EmptyString => String c EmptyString
      end
  end.

Definition StatusOK : Z := 200.
Definition StatusBadRequest : Z := 400.

(** An [http.Request]: its header (canonical name to values) and its body. *)
Record Request : Type := {
  Header : gmap string (list string);
  Body : string
}.

(** [r.Header.Get(name)] for a name that is already in canonical form, as
    "X-Event-Key" is: the first value stored under it, or the empty string. *)
Definition Header_Get (h : gmap string (list string)) (name : string) : string :=
  match h !! name with
  | Some (v :: _) => v
  | _ => EmptyString
  end.

(** The response as [httptest.ResponseRecorder] observes it: the status is
    200 until a header is written, and the first [WriteHeader] wins. *)
Record ResponseRecorder : Type := {
  Code : Z;
  RespBody : string;
  wroteHeader : bool
}.

Definition NewRecorder : ResponseRecorder :=
  {| Code := 200; RespBody := EmptyString; wroteHeader := false |}.

Definition WriteHeader (code : Z) (w : ResponseRecorder) : ResponseRecorder :=
  if wroteHeader w then w
  else {| Code := code; RespBody := RespBody w; wroteHeader := true |}.

Definition Write (s : string) (w : ResponseRecorder) : ResponseRecorder :=
  let w := WriteHeader 200 w in
  {| Code := Code w; RespBody := RespBody w +:+ s; wroteHeader := wroteHeader w |}.

Definition newline : string := String (Ascii.ascii_of_nat 10) EmptyString.

(** [http.Error(w, msg, code)]: the status, then the message and a newline
    ([fmt.Fprintln]). *)
Definition http_Error_writes (msg : string) (code : Z) (w : ResponseRecorder)
  : ResponseRecorder :=
  Write (msg +:+ newline) (WriteHeader code w).

(** ** The dispatcher *)

(** Headers is a map that contains the event payload headers set by
    BitBucket. *)
Definition Headers : Type := gmap string string.

Section Dispatcher.

(** The state of the embedding application, which the closures registered
    as handlers and as [LogOnError] read and write. *)
Variable App : Type.

(** The contents of a payload struct, its zero value per type, and
    [Decode] of a [json.Decoder]: given the body and the instance pointed to,
    it leaves the instance as decoded and returns the parser's error. *)
Variable Value : Type.
Variable zero : EventType → Value.
Variable json_Decode : string → EventType → Value → Value * error.

(** The [interface{}] passed to a handler: a pointer to an event struct,
    that is, the dynamic type and the struct pointed to. *)
Record Event : Type := {
  ev_type : EventType;
  ev_value : Value
}.

(** A WebhookHandler defined the function signature for event handler
    callbacks.  WebhookHandlers normally return nil but can return an
    error which triggers a 400 Bad Request response. *)
Definition WebhookHandler : Type := Headers → Event → App → App * error.

(** Webhook is a http.Handler that parses BitBucket webhook events. *)
Record Webhook : Type := {
  LogOnError : option (string → list string → App → App);
  handlers : option (gmap string WebhookHandler)
}.

(** The zero value of the struct: both fields nil. *)
Definition Webhook_zero : Webhook :=
  {| LogOnError := None; handlers := None |}.

(** NewWebhook constructs a new Webhook. *)
Definition NewWebhook : Webhook :=
  {| LogOnError := None; handlers := Some ∅ |}.

(** Handle is called to register a webhook handler for the expected
    eventKey. *)
Definition Handle (wh : Webhook) (eventKey : string) (handler : WebhookHandler)
  : Outcome Webhook :=
  match GoMap.assign (handlers wh) eventKey handler with
  | Returns m => Returns {| LogOnError := LogOnError wh; handlers := m |}
  | Panics msg => Panics msg
  end.

(** *** Effects *)

(** One observable step of a dispatch. *)
Inductive Step : Type :=
  | HandlersIndex (k : string)
  | EventTypeMapIndex (k : string)
  | ReflectNew (t : EventType)
  | DecodeBody (body : string) (t : EventType)
  | HandlerCall (h : WebhookHandler) (hs : Headers) (ev : Event)
  | LogOnErrorCall (format : string) (a : list string)
  | StdLogPrintf (line : string)
  | HttpError (msg : string) (code : Z).

Record World : Type := {
  w_app : App;
  w_resp : ResponseRecorder;
  w_trace : list Step
}.

Definition M (A : Type) : Type := World → A * World.

#[local] Instance M_ret : MRet M := λ A a w, (a, w).
#[local] Instance M_bind : MBind M := λ A B f m w,
  let '(a, w') := m w in f a w'.

Definition step (s : Step) : M unit := λ w,
  (tt, {| w_app := w_app w; w_resp := w_resp w; w_trace := w_trace w ++ [s] |}).

Definition on_app {A} (f : App → App * A) : M A := λ w,
  let '(app, a) := f (w_app w) in
  (a, {| w_app := app; w_resp := w_resp w; w_trace := w_trace w |}).

Definition on_resp (f : ResponseRecorder → ResponseRecorder) : M unit := λ w,
  (tt, {| w_app := w_app w; w_resp := f (w_resp w); w_trace := w_trace w |}).

(** [wh.handlers[eventKey]] *)
Definition handlers_index (wh : Webhook) (k : string) : M (option WebhookHandler) :=
  step (HandlersIndex k) ;; mret (GoMap.index (handlers wh) k).

(** [eventTypeMap[eventKey]] *)
Definition eventTypeMap_index (k : string) : M (option EventType) :=
  step (EventTypeMapIndex k) ;; mret (eventTypeMap !! k).

(** [reflect.New(reflect.TypeOf(t)).Elem().Addr().Interface()] *)
Definition reflect_New (t : EventType) : M Event :=
  step (ReflectNew t) ;; mret {| ev_type := t; ev_value := zero t |}.

(** [json.NewDecoder(r.Body).Decode(event)] *)
Definition Decode (body : string) (event : Event) : M (Event * error) :=
  step (DecodeBody body (ev_type event)) ;;
  let '(v, err) := json_Decode body (ev_type event) (ev_value event) in
  mret ({| ev_type := ev_type event; ev_value := v |}, err).

(** [handler(headers, event)] *)
Definition call (handler : WebhookHandler) (headers : Headers) (event : Event)
  : M error :=
  step (HandlerCall handler headers event) ;; on_app (handler headers event).

(** [log.Printf(format, a...)], the standard logger. *)
Definition log_Printf (format : string) (a : list string) : M unit :=
  step (StdLogPrintf (Sprintf format a)).

(** [http.Error(w, msg, code)] *)
Definition http_Error (msg : string) (code : Z) : M unit :=
  step (HttpError msg code) ;; on_resp (http_Error_writes msg code).

(** *** Methods *)

Definition badRequest (wh : Webhook) (msg : string) (p : list string) : M unit :=
  let fmsg := Sprintf msg p in
  match LogOnError wh with
  | Some f => step (LogOnErrorCall fmsg []) ;; on_app (λ app, (f fmsg [] app, tt))
  | None => mret tt
  end ;;
  http_Error fmsg StatusBadRequest.

(** The header set ServeHTTP builds from the request. *)
Definition extract_headers (r : Request) : Headers :=
  foldl (λ headers header, <[header := Header_Get (Header r) header]> headers)
        ∅ ["X-Event-Key"].

(** ServeHTTP implements the http.Handler interface. *)
Definition ServeHTTP (wh : Webhook) (r : Request) : M unit :=
  let headers := extract_headers r in
  let eventKey := default EmptyString (headers !! "X-Event-Key") in
  if decide (eventKey = EmptyString) then
    badRequest wh "Missing X-Event-Key" []
  else
    ho ← handlers_index wh eventKey;
    match ho with
    | None => badRequest wh "No handler for the event key: %s" [eventKey]
    | Some handler =>
        t ← eventTypeMap_index eventKey;
        match t with
        | None => badRequest wh "Unsupported event key type: %s" [eventKey]
        | Some t =>
            event ← reflect_New t;
            '(event, err) ← Decode (Body r) event;
            match err with
            | Some e =>
                log_Printf "Error parsing the body: %s" [e] ;;
                http_Error ("Read error: " +:+ e) StatusBadRequest
            | None =>
                err ← call handler headers event;
                match err with
                | Some e => badRequest wh "Error handling the event: %s" [e]
                | None => mret tt
                end
            end
        end
    end.

(** One request served on a fresh recorder, as
    [rec := httptest.NewRecorder(); wh.ServeHTTP(rec, req)]. *)
Definition NewWorld (app : App) : World :=
  {| w_app := app; w_resp := NewRecorder; w_trace := [] |}.

Definition serve (wh : Webhook) (r : Request) (app : App) : World :=
  snd (ServeHTTP wh r (NewWorld app)).

End Dispatcher.

Arguments ev_type {Value} _.
Arguments ev_value {Value} _.
Arguments Build_Event {Value} _ _.
Arguments LogOnError {App Value} _.
Arguments handlers {App Value} _.
Arguments Build_Webhook {App Value} _ _.
Arguments Webhook_zero {App Value}.
Arguments NewWebhook {App Value}.
Arguments Handle {App Value} wh eventKey handler.
Arguments HandlersIndex {App Value} k.
Arguments EventTypeMapIndex {App Value} k.
Arguments ReflectNew {App Value} t.
Arguments DecodeBody {App Value} body t.
Arguments HandlerCall {App Value} h hs ev.
Arguments LogOnErrorCall {App Value} format a.
Arguments StdLogPrintf {App Value} line.
Arguments HttpError {App Value} msg code.
Arguments w_app {App Value} _.
Arguments w_resp {App Value} _.
Arguments w_trace {App Value} _.
Arguments Build_World {App Value} _ _ _.
Arguments step {App Value} s.
Arguments on_app {App Value A} f.
Arguments on_resp {App Value} f.
Arguments handlers_index {App Value} wh k.
Arguments eventTypeMap_index {App Value} k.
Arguments reflect_New {App Value} zero t.
Arguments Decode {App Value} json_Decode body event.
Arguments call {App Value} handler headers event.
Arguments log_Printf {App Value} format a.
Arguments http_Error {App Value} msg code.
Arguments badRequest {App Value} wh msg p.
Arguments ServeHTTP {App Value} zero json_Decode wh r.
Arguments NewWorld {App Value} app.
Arguments serve {App Value} zero json_Decode wh r app.

(** ** Reading a trace *)

Definition is_HandlerCall {App Value} (s : Step App Value) : bool :=
  match s with HandlerCall _ _ _ => true | _ => false end.

Definition is_LogOnErrorCall {App Value} (s : Step App Value) : bool :=
  match s with LogOnErrorCall _ _ => true | _ => false end.

Definition is_StdLogPrintf {App Value} (s : Step App Value) : bool :=
  match s with StdLogPrintf _ => true | _ => false end.

(** A read of the handler registry or of the payload-type table. *)
Definition is_lookup {App Value} (s : Step App Value) : bool :=
  match s with HandlersIndex _ | EventTypeMapIndex _ => true | _ => false end.

Definition is_EventTypeMapIndex {App Value} (s : Step App Value) : bool :=
  match s with EventTypeMapIndex _ => true | _ => false end.

(** The allocation of a payload, or the read and parse of the body. *)
Definition is_payload_step {App Value} (s : Step App Value) : bool :=
  match s with ReflectNew _ | DecodeBody _ _ => true | _ => false end.

Definition count {A} (p : A → bool) (l : list A) : nat :=
  length (List.filter p l).

(** [sub] occurs in [s]. *)
Definition contains (sub s : string) : Prop :=
  ∃ pre post, s = pre +:+ sub +:+ post.

(** What [badRequest] adds to the trace before the response, and what it
    does to the application, by whether [LogOnError] is set. *)
Definition diagnostics {App Value} (wh : Webhook App Value) (fmsg : string)
  : list (Step App Value) :=
  match LogOnError wh with
  | Some _ => [LogOnErrorCall fmsg []]
  | None => []
  end.

Definition after_diagnostics {App Value} (wh : Webhook App Value) (fmsg : string)
    (app : App) : App :=
  match LogOnError wh with
  | Some f => f fmsg [] app
  | None => app
  end.

Definition is_HttpError {App Value} (s : Step App Value) : bool :=
  match s with HttpError _ _ => true | _ => false end.

(** The registrations of a set-up phase: [wh.Handle(k, h)] for each pair in
    turn, as far as no call panics. *)
Fixpoint HandleAll {App Value} (wh : Webhook App Value)
    (regs : list (string * WebhookHandler App Value)) : Outcome (Webhook App Value) :=
  match regs with
  | [] => Returns wh
  | (k, h) :: regs' =>
      match Handle wh k h with
      | Returns wh' => HandleAll wh' regs'
      | Panics msg => Panics msg
      end
  end.

(** ** A small application to run the dispatcher on

    The application keeps the lines its [LogOnError] callback was given and
    the payloads its handlers saw; payload contents are the raw body text,
    and the decoder accepts a body exactly when it is enclosed in braces. *)
Module Fixture.
Record app_state : Type := {
  diag_lines : list string;
  seen : list (string * string)
}.

Definition app0 : app_state := {| diag_lines := []; seen := [] |}.

Definition zero (t : EventType) : string := EmptyString.

Definition braces (s : string) : bool :=
  match s with
  | String c rest =>
      (Ascii.eqb c "{"%char
       && String.eqb (String.substring (String.length rest - 1) 1 rest) "}")%bool
  | EmptyString => false
  end.

Definition json_Decode (body : string) (t : EventType) (v : string)
  : string * error :=
  if braces body then (body, None) else (v, Some "unexpected EOF").

Definition record (tag : string) (err : error) : WebhookHandler app_state string :=
  λ hs ev app,
    ({| diag_lines := diag_lines app;
        seen := seen app ++ [(tag, ev_value ev)] |}, err).

Definition logger (format : string) (a : list string) (app : app_state)
  : app_state :=
  {| diag_lines := diag_lines app ++ [Sprintf format a]; seen := seen app |}.

Definition request (key body : string) : Request :=
  {| Header := {[ "X-Event-Key" := [key] ]}; Body := body |}.

(** A webhook with [LogOnError] set and handlers for two catalogued keys
    and one key that is not in the catalogue. *)
Definition wh : Webhook app_state string :=
  {| LogOnError := Some logger;
     handlers := Some {[ "repo:push" := record "push" None;
                         "repo:fork" := record "fork" (Some "rejected");
                         "custom:event" := record "custom" None ]} |}.

(** The same registry with [LogOnError] left unset. *)
Definition quiet : Webhook app_state string :=
  {| LogOnError := None; handlers := handlers wh |}.

Definition run (w : Webhook app_state string) (r : Request) (app : app_state)
  : World app_state string :=
  serve zero json_Decode w r app.
End Fixture.

(** ** Strings and formats *)

Lemma append_nil_r (s : string) : s +:+ EmptyString = s.
Proof. induction s as [|c s IH]; [reflexivity|]. cbv [String.append]. fold String.append. by rewrite IH. Qed.

Lemma append_cons (c : ascii) (s t : string) : String c s +:+ t = String c (s +:+ t).
Proof. reflexivity. Qed.

Lemma append_assoc (s t u : string) : (s +:+ t) +:+ u = s +:+ t +:+ u.
Proof.
  induction s as [|c s IH]; [reflexivity|].
  rewrite !append_cons. by rewrite IH.
Qed.

Lemma contains_intro (pre sub post : string) : contains sub (pre +:+ sub +:+ post).
Proof. by exists pre, post. Qed.

Lemma Sprintf_no_handler (k : string) :
  Sprintf "No handler for the event key: %s" [k]
  = "No handler for the event key: " +:+ k.
Proof. cbn [Sprintf Ascii.eqb Bool.eqb andb]. by rewrite append_nil_r. Qed.

Lemma Sprintf_unsupported (k : string) :
  Sprintf "Unsupported event key type: %s" [k]
  = "Unsupported event key type: " +:+ k.
Proof. cbn [Sprintf Ascii.eqb Bool.eqb andb]. by rewrite append_nil_r. Qed.

Lemma Sprintf_handler_error (e : string) :
  Sprintf "Error handling the event: %s" [e]
  = "Error handling the event: " +:+ e.
Proof. cbn [Sprintf Ascii.eqb Bool.eqb andb]. by rewrite append_nil_r. Qed.

Lemma Sprintf_parse_error (e : string) :
  Sprintf "Error parsing the body: %s" [e]
  = "Error parsing the body: " +:+ e.
Proof. cbn [Sprintf Ascii.eqb Bool.eqb andb]. by rewrite append_nil_r. Qed.

Lemma Sprintf_missing :
  Sprintf "Missing X-Event-Key" [] = "Missing X-Event-Key".
Proof. reflexivity. Qed.

(** ** The response writer *)

Lemma http_Error_fresh (msg : string) (code : Z) :
  http_Error_writes msg code NewRecorder
  = {| Code := code; RespBody := msg +:+ newline; wroteHeader := true |}.
Proof. reflexivity. Qed.

(** ** The payload-type table *)

Lemma eventTypeMap_size : size eventTypeMap = 17%nat.
Proof. vm_compute. reflexivity. Qed.

Lemma eventTypeMap_no_empty_key : eventTypeMap !! EmptyString = None.
Proof. vm_compute. reflexivity. Qed.

(** ** The branches of ServeHTTP *)

Section Branches.
Context {App Value : Type}.
Variable zero : EventType → Value.
Variable json_Decode : string → EventType → Value → Value * error.

Implicit Types (wh : Webhook App Value) (r : Request) (app : App).
Implicit Types (k e : string) (t : EventType) (v : Value).
Implicit Types (handler : WebhookHandler App Value).

Lemma extract_headers_eq r :
  extract_headers r = {[ "X-Event-Key" := Header_Get (Header r) "X-Event-Key" ]}.
Proof. reflexivity. Qed.

Lemma eventKey_eq r :
  default EmptyString (extract_headers r !! "X-Event-Key")
  = Header_Get (Header r) "X-Event-Key".
Proof. reflexivity. Qed.

Lemma Header_Get_absent r name :
  Header r !! name = None → Header_Get (Header r) name = EmptyString.
Proof. unfold Header_Get. by intros ->. Qed.

(** Runs the monadic steps of the goal. *)
Ltac run :=
  cbv [mbind mret M_bind M_ret step on_app on_resp http_Error log_Printf
       handlers_index eventTypeMap_index reflect_New Decode call NewWorld];
  cbn [fst snd w_app w_resp w_trace ev_type ev_value app].

(** [badRequest] started on any world. *)
Lemma badRequest_run wh msg p (w : World App Value) :
  badRequest wh msg p w
  = (tt, {| w_app := after_diagnostics wh (Sprintf msg p) (w_app w);
            w_resp := http_Error_writes (Sprintf msg p) StatusBadRequest (w_resp w);
            w_trace := w_trace w ++ diagnostics wh (Sprintf msg p)
                       ++ [HttpError (Sprintf msg p) StatusBadRequest] |}).
Proof.
  unfold badRequest, after_diagnostics, diagnostics.
  destruct (LogOnError wh) as [f|]; run.
  - by rewrite <- app_assoc.
  - reflexivity.
Qed.

(** Step 1: no event key. *)
Lemma serve_missing wh r app :
  Header_Get (Header r) "X-Event-Key" = EmptyString →
  serve zero json_Decode wh r app
  = {| w_app := after_diagnostics wh "Missing X-Event-Key" app;
       w_resp := {| Code := 400; RespBody := "Missing X-Event-Key" +:+ newline;
                    wroteHeader := true |};
       w_trace := diagnostics wh "Missing X-Event-Key"
                  ++ [HttpError "Missing X-Event-Key" 400] |}.
Proof.
  intros Hk. unfold serve, ServeHTTP. rewrite eventKey_eq, Hk.
  rewrite decide_True by reflexivity.
  by rewrite badRequest_run.
Qed.

(** Step 2: no handler under the key. *)
Lemma serve_no_handler wh r app k :
  Header_Get (Header r) "X-Event-Key" = k → k ≠ EmptyString →
  GoMap.index (handlers wh) k = None →
  let fmsg := "No handler for the event key: " +:+ k in
  serve zero json_Decode wh r app
  = {| w_app := after_diagnostics wh fmsg app;
       w_resp := {| Code := 400; RespBody := fmsg +:+ newline; wroteHeader := true |};
       w_trace := [HandlersIndex k] ++ diagnostics wh fmsg ++ [HttpError fmsg 400] |}.
Proof.
  intros Hk Hne Hh fmsg. unfold serve, ServeHTTP. rewrite eventKey_eq, Hk.
  rewrite decide_False by done.
  run. rewrite Hh, badRequest_run, Sprintf_no_handler. reflexivity.
Qed.

(** Step 3: a handler, but no payload type under the key. *)
Lemma serve_unsupported wh r app k handler :
  Header_Get (Header r) "X-Event-Key" = k → k ≠ EmptyString →
  GoMap.index (handlers wh) k = Some handler →
  eventTypeMap !! k = None →
  let fmsg := "Unsupported event key type: " +:+ k in
  serve zero json_Decode wh r app
  = {| w_app := after_diagnostics wh fmsg app;
       w_resp := {| Code := 400; RespBody := fmsg +:+ newline; wroteHeader := true |};
       w_trace := [HandlersIndex k; EventTypeMapIndex k]
                  ++ diagnostics wh fmsg ++ [HttpError fmsg 400] |}.
Proof.
  intros Hk Hne Hh Ht fmsg. unfold serve, ServeHTTP. rewrite eventKey_eq, Hk.
  rewrite decide_False by done.
  run. rewrite Hh, Ht, badRequest_run, Sprintf_unsupported. reflexivity.
Qed.

(** Step 5: the decoder returns an error. *)
Lemma serve_decode_error wh r app k handler t v e :
  Header_Get (Header r) "X-Event-Key" = k → k ≠ EmptyString →
  GoMap.index (handlers wh) k = Some handler →
  eventTypeMap !! k = Some t →
  json_Decode (Body r) t (zero t) = (v, Some e) →
  serve zero json_Decode wh r app
  = {| w_app := app;
       w_resp := {| Code := 400; RespBody := ("Read error: " +:+ e) +:+ newline;
                    wroteHeader := true |};
       w_trace := [HandlersIndex k; EventTypeMapIndex k; ReflectNew t;
                   DecodeBody (Body r) t;
                   StdLogPrintf ("Error parsing the body: " +:+ e);
                   HttpError ("Read error: " +:+ e) 400] |}.
Proof.
  intros Hk Hne Hh Ht Hd. unfold serve, ServeHTTP. rewrite eventKey_eq, Hk.
  rewrite decide_False by done.
  run. rewrite Hh, Ht, Hd. run.
  rewrite Sprintf_parse_error. reflexivity.
Qed.

(** Steps 6 to 8: the handler runs. *)
Lemma serve_handler wh r app k handler t v app' err :
  Header_Get (Header r) "X-Event-Key" = k → k ≠ EmptyString →
  GoMap.index (handlers wh) k = Some handler →
  eventTypeMap !! k = Some t →
  json_Decode (Body r) t (zero t) = (v, None) →
  handler {[ "X-Event-Key" := k ]} {| ev_type := t; ev_value := v |} app = (app', err) →
  let called :=
    [HandlersIndex k; EventTypeMapIndex k; ReflectNew t; DecodeBody (Body r) t;
     HandlerCall handler {[ "X-Event-Key" := k ]} {| ev_type := t; ev_value := v |}] in
  serve zero json_Decode wh r app
  = match err with
    | None => {| w_app := app'; w_resp := NewRecorder; w_trace := called |}
    | Some e =>
        let fmsg := "Error handling the event: " +:+ e in
        {| w_app := after_diagnostics wh fmsg app';
           w_resp := {| Code := 400; RespBody := fmsg +:+ newline;
                        wroteHeader := true |};
           w_trace := called ++ diagnostics wh fmsg ++ [HttpError fmsg 400] |}
    end.
Proof.
  intros Hk Hne Hh Ht Hd Hcall called. unfold serve, ServeHTTP.
  rewrite eventKey_eq, extract_headers_eq, Hk.
  rewrite decide_False by done.
  run. rewrite Hh, Ht, Hd. run. rewrite Hcall.
  destruct err as [e|]; [|reflexivity].
  rewrite badRequest_run, Sprintf_handler_error. reflexivity.
Qed.

End Branches.

(** ** Properties of the dispatcher *)

Section Claims.
Context {App Value : Type}.
Variable zero : EventType → Value.
Variable json_Decode : string → EventType → Value → Value * error.

Implicit Types (wh : Webhook App Value) (r : Request) (app : App).
Implicit Types (k e : string) (t : EventType) (v : Value).
Implicit Types (handler : WebhookHandler App Value).

Local Abbreviation dispatch := (serve zero json_Decode).

(** Closes a goal about the steps [badRequest] leaves, by whether
    [LogOnError] is set. *)
Ltac by_hook wh :=
  unfold count, diagnostics, after_diagnostics;
  destruct (LogOnError wh); reflexivity.

Lemma catalogued_nonempty k t : eventTypeMap !! k = Some t → k ≠ EmptyString.
Proof. intros Ht ->. by rewrite eventTypeMap_no_empty_key in Ht. Qed.

(** C3. A request whose X-Event-Key header is absent or empty is answered
    with status 400 and the message "Missing X-Event-Key"; neither the
    handler registry nor the payload-type table is read, no payload is
    allocated, the body is not read and no handler is called. *)
Theorem missing_event_key_rejected wh r app :
  Header r !! "X-Event-Key" = None
  ∨ Header_Get (Header r) "X-Event-Key" = EmptyString →
  let w' := dispatch wh r app in
  Code (w_resp w') = StatusBadRequest
  ∧ RespBody (w_resp w') = "Missing X-Event-Key" +:+ newline
  ∧ contains "Missing X-Event-Key" (RespBody (w_resp w'))
  ∧ w_trace w' = diagnostics wh "Missing X-Event-Key"
                 ++ [HttpError "Missing X-Event-Key" StatusBadRequest]
  ∧ count is_lookup (w_trace w') = 0%nat
  ∧ count is_payload_step (w_trace w') = 0%nat
  ∧ count is_HandlerCall (w_trace w') = 0%nat
  ∧ w_app w' = after_diagnostics wh "Missing X-Event-Key" app.
Proof.
  intros Hk w'.
  assert (Header_Get (Header r) "X-Event-Key" = EmptyString) as Hget.
  { destruct Hk as [Hk|Hk]; [by apply Header_Get_absent|exact Hk]. }
  subst w'. rewrite (serve_missing zero json_Decode wh r app Hget). cbn.
  repeat split; try by_hook wh.
  exact (contains_intro EmptyString "Missing X-Event-Key" newline).
Qed.

(** C4. A request whose non-empty event key has no handler in the registry
    is answered with status 400 ("No handler for the event key"), whether
    or not the key is in the payload-type table: the table is not read, no
    payload is allocated, the body is not read and no handler is called. *)
Theorem unknown_handler_rejected wh r app k :
  Header_Get (Header r) "X-Event-Key" = k → k ≠ EmptyString →
  GoMap.index (handlers wh) k = None →
  let fmsg := "No handler for the event key: " +:+ k in
  let w' := dispatch wh r app in
  Code (w_resp w') = StatusBadRequest
  ∧ RespBody (w_resp w') = fmsg +:+ newline
  ∧ w_trace w' = [HandlersIndex k] ++ diagnostics wh fmsg
                 ++ [HttpError fmsg StatusBadRequest]
  ∧ count is_EventTypeMapIndex (w_trace w') = 0%nat
  ∧ count is_payload_step (w_trace w') = 0%nat
  ∧ count is_HandlerCall (w_trace w') = 0%nat
  ∧ w_app w' = after_diagnostics wh fmsg app.
Proof.
  intros Hk Hne Hh fmsg w'. subst w'.
  rewrite (serve_no_handler zero json_Decode wh r app k Hk Hne Hh). cbn.
  repeat split; by_hook wh.
Qed.

(** The "Unsupported event key type" response is produced only for a key
    that has a handler and is not in the payload-type table. *)
Lemma unsupported_only_if wh r app k' :
  RespBody (w_resp (dispatch wh r app))
  = ("Unsupported event key type: " +:+ k') +:+ newline →
  is_Some (GoMap.index (handlers wh) (Header_Get (Header r) "X-Event-Key"))
  ∧ eventTypeMap !! Header_Get (Header r) "X-Event-Key" = None.
Proof.
  set (k := Header_Get (Header r) "X-Event-Key").
  assert (Header_Get (Header r) "X-Event-Key" = k) as Hk by reflexivity.
  destruct (decide (k = EmptyString)) as [He|Hne].
  { rewrite He in Hk. rewrite (serve_missing zero json_Decode wh r app Hk).
    cbn. discriminate. }
  destruct (GoMap.index (handlers wh) k) as [handler|] eqn:Hh.
  2:{ rewrite (serve_no_handler zero json_Decode wh r app k Hk Hne Hh).
      cbn. discriminate. }
  destruct (eventTypeMap !! k) as [t|] eqn:Ht; [|by eauto].
  destruct (json_Decode (Body r) t (zero t)) as [v [e|]] eqn:Hd.
  { rewrite (serve_decode_error zero json_Decode wh r app k handler t v e
               Hk Hne Hh Ht Hd).
    cbn. discriminate. }
  destruct (handler {[ "X-Event-Key" := k ]} {| ev_type := t; ev_value := v |} app)
    as [app' err] eqn:Hcall.
  rewrite (serve_handler zero json_Decode wh r app k handler t v app' err
             Hk Hne Hh Ht Hd Hcall).
  destruct err as [e|]; cbn; discriminate.
Qed.

(** C5. A request whose event key has a handler but is not among the
    seventeen keys of the payload-type table is answered with status 400
    ("Unsupported event key type"), before a payload is allocated or the
    body read, and the handler is not called; no other request gets that
    answer. *)
Theorem unsupported_event_key_rejected wh r app k handler :
  Header_Get (Header r) "X-Event-Key" = k → k ≠ EmptyString →
  GoMap.index (handlers wh) k = Some handler →
  eventTypeMap !! k = None →
  let fmsg := "Unsupported event key type: " +:+ k in
  let w' := dispatch wh r app in
  size eventTypeMap = 17%nat
  ∧ Code (w_resp w') = StatusBadRequest
  ∧ RespBody (w_resp w') = fmsg +:+ newline
  ∧ w_trace w' = [HandlersIndex k; EventTypeMapIndex k] ++ diagnostics wh fmsg
                 ++ [HttpError fmsg StatusBadRequest]
  ∧ count is_payload_step (w_trace w') = 0%nat
  ∧ count is_HandlerCall (w_trace w') = 0%nat
  ∧ w_app w' = after_diagnostics wh fmsg app
  ∧ (∀ wh1 r1 app1 k1,
       RespBody (w_resp (dispatch wh1 r1 app1))
       = ("Unsupported event key type: " +:+ k1) +:+ newline →
       is_Some (GoMap.index (handlers wh1) (Header_Get (Header r1) "X-Event-Key"))
       ∧ eventTypeMap !! Header_Get (Header r1) "X-Event-Key" = None).
Proof.
  intros Hk Hne Hh Ht fmsg w'. subst w'.
  rewrite (serve_unsupported zero json_Decode wh r app k handler Hk Hne Hh Ht). cbn.
  split; [exact eventTypeMap_size|].
  repeat split; try by_hook wh; eapply unsupported_only_if; eassumption.
Qed.


(** C1. For a handler registered under a catalogued event key and a body
    the decoder accepts for that key's payload type, ServeHTTP calls that
    handler exactly once, with the header set taken from the request and
    the payload allocated for this request as the decoder filled it from
    the body; when the handler returns nil the response is 200 with an
    empty body. *)
Theorem dispatch_calls_registered_handler wh r app k handler t v :
  Header_Get (Header r) "X-Event-Key" = k →
  GoMap.index (handlers wh) k = Some handler →
  eventTypeMap !! k = Some t →
  json_Decode (Body r) t (zero t) = (v, None) →
  let headers : Headers := {[ "X-Event-Key" := k ]} in
  let event := {| ev_type := t; ev_value := v |} in
  let called :=
    [HandlersIndex k; EventTypeMapIndex k; ReflectNew t; DecodeBody (Body r) t;
     HandlerCall handler headers event] in
  let w' := dispatch wh r app in
  extract_headers r = headers
  ∧ (∃ rest, w_trace w' = called ++ rest ∧ count is_HandlerCall rest = 0%nat)
  ∧ List.filter is_HandlerCall (w_trace w') = [HandlerCall handler headers event]
  ∧ count is_HandlerCall (w_trace w') = 1%nat
  ∧ ((handler headers event app).2 = None →
     Code (w_resp w') = StatusOK
     ∧ RespBody (w_resp w') = EmptyString
     ∧ wroteHeader (w_resp w') = false
     ∧ w_trace w' = called
     ∧ w_app w' = (handler headers event app).1).
Proof.
  intros Hk Hh Ht Hd headers event called w'.
  pose proof (catalogued_nonempty k t Ht) as Hne.
  destruct (handler headers event app) as [app' err] eqn:Hcall.
  subst w'.
  rewrite (serve_handler zero json_Decode wh r app k handler t v app' err
             Hk Hne Hh Ht Hd Hcall).
  split; [by rewrite extract_headers_eq, Hk|].
  destruct err as [e|]; cbn.
  - split.
    { eexists. split; [reflexivity|]. by_hook wh. }
    split; [by_hook wh|]. split; [by_hook wh|]. intros Hnil. discriminate Hnil.
  - split.
    { exists []. by split. }
    by repeat split.
Qed.

(** C6. When the body of a request with a registered, catalogued event key
    does not decode into the payload type, the response is 400 with a body
    that carries the decoder's error message, and the handler is not
    called. *)
Theorem decode_error_rejected wh r app k handler t v e :
  Header_Get (Header r) "X-Event-Key" = k →
  GoMap.index (handlers wh) k = Some handler →
  eventTypeMap !! k = Some t →
  json_Decode (Body r) t (zero t) = (v, Some e) →
  let w' := dispatch wh r app in
  Code (w_resp w') = StatusBadRequest
  ∧ RespBody (w_resp w') = "Read error: " +:+ e +:+ newline
  ∧ contains e (RespBody (w_resp w'))
  ∧ count is_HandlerCall (w_trace w') = 0%nat
  ∧ w_app w' = app.
Proof.
  intros Hk Hh Ht Hd w'.
  pose proof (catalogued_nonempty k t Ht) as Hne.
  subst w'.
  rewrite (serve_decode_error zero json_Decode wh r app k handler t v e
             Hk Hne Hh Ht Hd).
  cbn. rewrite append_assoc. repeat split.
  exact (contains_intro "Read error: " e newline).
Qed.

(** C7. When the registered handler is called and returns an error, the
    response is 400 with a body that carries the handler's message, and
    what the handler did to the application stays done; when it returns
    nil, nothing is written and the response is the 200 of an untouched
    writer. *)
Theorem handler_error_rejected wh r app k handler t v app' err :
  Header_Get (Header r) "X-Event-Key" = k →
  GoMap.index (handlers wh) k = Some handler →
  eventTypeMap !! k = Some t →
  json_Decode (Body r) t (zero t) = (v, None) →
  handler {[ "X-Event-Key" := k ]} {| ev_type := t; ev_value := v |} app
  = (app', err) →
  let w' := dispatch wh r app in
  count is_HandlerCall (w_trace w') = 1%nat
  ∧ match err with
    | Some e =>
        let fmsg := "Error handling the event: " +:+ e in
        Code (w_resp w') = StatusBadRequest
        ∧ RespBody (w_resp w') = "Error handling the event: " +:+ e +:+ newline
        ∧ contains e (RespBody (w_resp w'))
        ∧ w_app w' = after_diagnostics wh fmsg app'
        ∧ List.last (w_trace w') (HandlersIndex k) = HttpError fmsg StatusBadRequest
    | None =>
        Code (w_resp w') = StatusOK
        ∧ RespBody (w_resp w') = EmptyString
        ∧ w_app w' = app'
        ∧ count (λ s, negb (is_lookup s || is_payload_step s || is_HandlerCall s))
                (w_trace w') = 0%nat
    end.
Proof.
  intros Hk Hh Ht Hd Hcall w'.
  pose proof (catalogued_nonempty k t Ht) as Hne.
  subst w'.
  rewrite (serve_handler zero json_Decode wh r app k handler t v app' err
             Hk Hne Hh Ht Hd Hcall).
  destruct err as [e|]; cbn.
  - rewrite append_assoc. repeat split; try by_hook wh.
    exact (contains_intro "Error handling the event: " e newline).
  - by repeat split.
Qed.


(** C9. A Webhook without handlers, the zero value with its nil registry
    included, serves every request with a 400: "Missing X-Event-Key" or
    "No handler for the event key"; no payload is made, no handler is
    called and the success path is not taken. *)
Theorem no_handlers_rejects_all wh r app :
  handlers wh = None ∨ handlers wh = Some ∅ →
  let k := Header_Get (Header r) "X-Event-Key" in
  let w' := dispatch wh r app in
  Code (w_resp w') = StatusBadRequest
  ∧ (RespBody (w_resp w') = "Missing X-Event-Key" +:+ newline
     ∨ RespBody (w_resp w') = ("No handler for the event key: " +:+ k) +:+ newline)
  ∧ count is_HandlerCall (w_trace w') = 0%nat
  ∧ count is_payload_step (w_trace w') = 0%nat
  ∧ w_resp w' ≠ NewRecorder.
Proof.
  intros Hnone k w'.
  assert (∀ k', GoMap.index (handlers wh) k' = None) as Hh.
  { intros k'. destruct Hnone as [-> | ->]; [reflexivity|apply lookup_empty]. }
  subst w'. destruct (decide (k = EmptyString)) as [He|Hne].
  - rewrite (serve_missing zero json_Decode wh r app He). cbn.
    repeat split; try by_hook wh; [by left|discriminate].
  - rewrite (serve_no_handler zero json_Decode wh r app k eq_refl Hne (Hh k)). cbn.
    repeat split; try by_hook wh; [by right|discriminate].
Qed.

(** C10. Handle on a Webhook whose registry is nil, as in the zero value,
    panics on the map assignment, while on the result of NewWebhook it
    returns with the handler stored; the zero value still serves requests,
    with a 400. *)
Theorem Handle_on_zero_value_panics f k (h : WebhookHandler App Value) :
  Handle {| LogOnError := f; handlers := None |} k h
  = Panics "assignment to entry in nil map"
  ∧ Handle Webhook_zero k h = Panics "assignment to entry in nil map"
  ∧ (∃ wh', Handle NewWebhook k h = Returns wh'
            ∧ GoMap.index (handlers wh') k = Some h)
  ∧ (∀ r app, Code (w_resp (dispatch Webhook_zero r app)) = StatusBadRequest).
Proof.
  split; [reflexivity|]. split; [reflexivity|]. split.
  - eexists. split; [reflexivity|]. apply lookup_insert_eq.
  - intros r app.
    destruct (decide (Header_Get (Header r) "X-Event-Key" = EmptyString)) as [He|Hne].
    + by rewrite (serve_missing zero json_Decode Webhook_zero r app He).
    + by rewrite (serve_no_handler zero json_Decode Webhook_zero r app _
                    eq_refl Hne eq_refl).
Qed.

End Claims.

(** ** The dispatcher at work on the small application *)

Section Runs.
Import Fixture.

Local Abbreviation push := (record "push" None).
Local Abbreviation fork := (record "fork" (Some "rejected")).
Local Abbreviation custom := (record "custom" None).

(** C2. On a body that does not decode, ServeHTTP does not go through
    [badRequest]: with [LogOnError] set, the callback is not called and
    the line goes to the standard logger instead; with it unset, the
    standard logger is written all the same.  The other failures do call
    the callback, once and before the response. *)
Theorem decode_error_bypasses_LogOnError :
  LogOnError wh = Some logger
  ∧ GoMap.index (handlers wh) "repo:push" = Some push
  ∧ eventTypeMap !! "repo:push" = Some RepoPushEvent
  ∧ json_Decode "{" RepoPushEvent (zero RepoPushEvent) = (EmptyString, Some "unexpected EOF")
  ∧ w_trace (run wh (request "repo:push" "{") app0)
    = [HandlersIndex "repo:push"; EventTypeMapIndex "repo:push";
       ReflectNew RepoPushEvent; DecodeBody "{" RepoPushEvent;
       StdLogPrintf "Error parsing the body: unexpected EOF";
       HttpError "Read error: unexpected EOF" 400]
  ∧ count is_LogOnErrorCall (w_trace (run wh (request "repo:push" "{") app0)) = 0%nat
  ∧ diag_lines (w_app (run wh (request "repo:push" "{") app0)) = []
  ∧ Code (w_resp (run wh (request "repo:push" "{") app0)) = 400
  ∧ count is_StdLogPrintf (w_trace (run quiet (request "repo:push" "{") app0)) = 1%nat
  ∧ w_trace (run wh (request "custom:event" "{") app0)
    = [HandlersIndex "custom:event"; EventTypeMapIndex "custom:event";
       LogOnErrorCall "Unsupported event key type: custom:event" [];
       HttpError "Unsupported event key type: custom:event" 400]
  ∧ diag_lines (w_app (run wh (request "custom:event" "{") app0))
    = ["Unsupported event key type: custom:event"].
Proof. vm_compute. repeat split. Qed.

Lemma dispatch_calls_registered_handler_witness :
  json_Decode "{}" RepoPushEvent (zero RepoPushEvent) = ("{}", None)
  ∧ count is_HandlerCall (w_trace (run wh (request "repo:push" "{}") app0)) = 1%nat
  ∧ seen (w_app (run wh (request "repo:push" "{}") app0)) = [("push", "{}")].
Proof.
  split; [reflexivity|].
  destruct (dispatch_calls_registered_handler zero json_Decode wh
              (request "repo:push" "{}") app0 "repo:push" push RepoPushEvent "{}")
    as (_ & _ & _ & Hcount & Hnil);
    [vm_compute; reflexivity..|].
  split; [exact Hcount|].
  destruct (Hnil eq_refl) as (_ & _ & _ & _ & Happ).
  unfold run. rewrite Happ. reflexivity.
Defined.

Lemma missing_event_key_rejected_witness :
  Header_Get (Header (request "" "{}")) "X-Event-Key" = EmptyString
  ∧ Code (w_resp (run wh (request "" "{}") app0)) = 400.
Proof.
  split; [reflexivity|].
  apply (missing_event_key_rejected zero json_Decode wh (request "" "{}") app0).
  right. reflexivity.
Defined.

Lemma unknown_handler_rejected_witness :
  GoMap.index (handlers wh) "issue:created" = None
  ∧ Code (w_resp (run wh (request "issue:created" "{}") app0)) = 400.
Proof.
  split; [vm_compute; reflexivity|].
  apply (unknown_handler_rejected zero json_Decode wh
           (request "issue:created" "{}") app0 "issue:created");
    [vm_compute; reflexivity|discriminate|vm_compute; reflexivity].
Defined.

Lemma unsupported_event_key_rejected_witness :
  GoMap.index (handlers wh) "custom:event" = Some custom
  ∧ eventTypeMap !! "custom:event" = None
  ∧ Code (w_resp (run wh (request "custom:event" "{}") app0)) = 400.
Proof.
  split; [vm_compute; reflexivity|]. split; [vm_compute; reflexivity|].
  apply (unsupported_event_key_rejected zero json_Decode wh
           (request "custom:event" "{}") app0 "custom:event" custom);
    [vm_compute; reflexivity|discriminate|vm_compute; reflexivity..].
Defined.

Lemma decode_error_rejected_witness :
  json_Decode "{" RepoPushEvent (zero RepoPushEvent)
  = (EmptyString, Some "unexpected EOF")
  ∧ Code (w_resp (run wh (request "repo:push" "{") app0)) = 400.
Proof.
  split; [reflexivity|].
  apply (decode_error_rejected zero json_Decode wh (request "repo:push" "{") app0
           "repo:push" push RepoPushEvent EmptyString "unexpected EOF");
    vm_compute; reflexivity.
Defined.

Lemma handler_error_rejected_witness :
  GoMap.index (handlers wh) "repo:fork" = Some fork
  ∧ Code (w_resp (run wh (request "repo:fork" "{}") app0)) = 400
  ∧ seen (w_app (run wh (request "repo:fork" "{}") app0)) = [("fork", "{}")].
Proof.
  split; [vm_compute; reflexivity|].
  destruct (handler_error_rejected zero json_Decode wh (request "repo:fork" "{}")
              app0 "repo:fork" fork RepoForkEvent "{}"
              {| diag_lines := []; seen := [("fork", "{}")] |} (Some "rejected"))
    as (_ & Hcode & _ & _ & Happ & _);
    [vm_compute; reflexivity..|].
  split; [exact Hcode|].
  unfold run. rewrite Happ. reflexivity.
Defined.


Lemma no_handlers_rejects_all_witness :
  handlers (@Webhook_zero app_state string) = None
  ∧ Code (w_resp (run Webhook_zero (request "repo:push" "{}") app0)) = 400.
Proof.
  split; [reflexivity|].
  apply (no_handlers_rejects_all zero json_Decode Webhook_zero
           (request "repo:push" "{}") app0).
  left. reflexivity.
Defined.

End Runs.

(** ** Further properties of the dispatcher *)

Section Dispatch.
Context {App Value : Type}.
Variable zero : EventType → Value.
Variable json_Decode : string → EventType → Value → Value * error.

Implicit Types (wh : Webhook App Value) (r : Request) (app : App).
Implicit Types (k e : string) (t : EventType) (v : Value).
Implicit Types (handler h : WebhookHandler App Value).

Local Abbreviation dispatch := (serve zero json_Decode).

(** The six ways a request can end, as an elimination rule. *)
Lemma serve_cases wh r app (P : World App Value → Prop) :
  let k := Header_Get (Header r) "X-Event-Key" in
  let called handler t v :=
    [HandlersIndex k; EventTypeMapIndex k; ReflectNew t; DecodeBody (Body r) t;
     HandlerCall handler {[ "X-Event-Key" := k ]} {| ev_type := t; ev_value := v |}] in
  let rejected fmsg app' pre :=
    {| w_app := after_diagnostics wh fmsg app';
       w_resp := {| Code := 400; RespBody := fmsg +:+ newline; wroteHeader := true |};
       w_trace := pre ++ diagnostics wh fmsg ++ [HttpError fmsg 400] |} in
  (k = EmptyString → P (rejected "Missing X-Event-Key" app [])) →
  (k ≠ EmptyString → GoMap.index (handlers wh) k = None →
   P (rejected ("No handler for the event key: " +:+ k) app [HandlersIndex k])) →
  (∀ handler, k ≠ EmptyString → GoMap.index (handlers wh) k = Some handler →
   eventTypeMap !! k = None →
   P (rejected ("Unsupported event key type: " +:+ k) app
        [HandlersIndex k; EventTypeMapIndex k])) →
  (∀ handler t v e, k ≠ EmptyString → GoMap.index (handlers wh) k = Some handler →
   eventTypeMap !! k = Some t → json_Decode (Body r) t (zero t) = (v, Some e) →
   P {| w_app := app;
        w_resp := {| Code := 400; RespBody := ("Read error: " +:+ e) +:+ newline;
                     wroteHeader := true |};
        w_trace := [HandlersIndex k; EventTypeMapIndex k; ReflectNew t;
                    DecodeBody (Body r) t;
                    StdLogPrintf ("Error parsing the body: " +:+ e);
                    HttpError ("Read error: " +:+ e) 400] |}) →
  (∀ handler t v app' e, k ≠ EmptyString →
   GoMap.index (handlers wh) k = Some handler →
   eventTypeMap !! k = Some t → json_Decode (Body r) t (zero t) = (v, None) →
   handler {[ "X-Event-Key" := k ]} {| ev_type := t; ev_value := v |} app
   = (app', Some e) →
   P (rejected ("Error handling the event: " +:+ e) app' (called handler t v))) →
  (∀ handler t v app', k ≠ EmptyString →
   GoMap.index (handlers wh) k = Some handler →
   eventTypeMap !! k = Some t → json_Decode (Body r) t (zero t) = (v, None) →
   handler {[ "X-Event-Key" := k ]} {| ev_type := t; ev_value := v |} app
   = (app', None) →
   P {| w_app := app'; w_resp := NewRecorder; w_trace := called handler t v |}) →
  P (dispatch wh r app).
Proof.
  intros k called rejected Hmissing Hnone Hunsup Hdecode Herr Hok.
  assert (Header_Get (Header r) "X-Event-Key" = k) as Hk by reflexivity.
  destruct (decide (k = EmptyString)) as [He|Hne].
  { rewrite (serve_missing zero json_Decode wh r app He). by apply Hmissing. }
  destruct (GoMap.index (handlers wh) k) as [handler|] eqn:Hh.
  2:{ rewrite (serve_no_handler zero json_Decode wh r app k Hk Hne Hh).
      by apply Hnone. }
  destruct (eventTypeMap !! k) as [t|] eqn:Ht.
  2:{ rewrite (serve_unsupported zero json_Decode wh r app k handler Hk Hne Hh Ht).
      by apply (Hunsup handler). }
  destruct (json_Decode (Body r) t (zero t)) as [v [e|]] eqn:Hd.
  { rewrite (serve_decode_error zero json_Decode wh r app k handler t v e
               Hk Hne Hh Ht Hd).
    by apply (Hdecode handler t v e). }
  destruct (handler {[ "X-Event-Key" := k ]} {| ev_type := t; ev_value := v |} app)
    as [app' err] eqn:Hcall.
  rewrite (serve_handler zero json_Decode wh r app k handler t v app' err
             Hk Hne Hh Ht Hd Hcall).
  destruct err as [e|].
  - by apply (Herr handler t v app' e).
  - by apply (Hok handler t v app').
Qed.

(** Splits on whether [LogOnError] is set and computes. *)
Ltac hook_cases wh :=
  unfold count, diagnostics, after_diagnostics in *;
  destruct (LogOnError wh); cbn in *.

(** Every request ends in one of two ways: nothing was written to the
    response (status 200, empty body) and the handler was called once, or
    [http.Error] was called once, as the last step, with status 400 and a
    body that is its message and a newline.  No other status is ever sent. *)
Theorem response_is_200_or_400 wh r app :
  let w' := dispatch wh r app in
  (w_resp w' = NewRecorder
   ∧ count is_HttpError (w_trace w') = 0%nat
   ∧ count is_HandlerCall (w_trace w') = 1%nat)
  ∨ (Code (w_resp w') = StatusBadRequest
     ∧ wroteHeader (w_resp w') = true
     ∧ count is_HttpError (w_trace w') = 1%nat
     ∧ ∃ msg, RespBody (w_resp w') = msg +:+ newline
              ∧ List.last (w_trace w') (HandlersIndex EmptyString)
                = HttpError msg StatusBadRequest).
Proof.
  apply serve_cases; intros; cbn [w_resp w_trace Code RespBody wroteHeader];
    first [ left; by repeat split
          | right; repeat split; try (by hook_cases wh);
            eexists; split; [reflexivity|]; by hook_cases wh ].
Qed.

(** The status is 200 exactly when the event key has a handler and a payload
    type, the body decodes, and the handler returns nil. *)
Theorem ok_iff_handler_returned_nil wh r app :
  Code (w_resp (dispatch wh r app)) = StatusOK
  ↔ ∃ handler t v app',
      GoMap.index (handlers wh) (Header_Get (Header r) "X-Event-Key") = Some handler
      ∧ eventTypeMap !! Header_Get (Header r) "X-Event-Key" = Some t
      ∧ json_Decode (Body r) t (zero t) = (v, None)
      ∧ handler {[ "X-Event-Key" := Header_Get (Header r) "X-Event-Key" ]}
                {| ev_type := t; ev_value := v |} app = (app', None).
Proof.
  apply serve_cases; cbn [w_resp Code].
  - intros He. split; [discriminate|].
    intros (handler & t & v & app' & _ & Ht & _).
    rewrite He in Ht. by rewrite eventTypeMap_no_empty_key in Ht.
  - intros _ Hh. split; [discriminate|].
    intros (handler & t & v & app' & Hh' & _). congruence.
  - intros handler _ _ Ht. split; [discriminate|].
    intros (handler' & t & v & app' & _ & Ht' & _). congruence.
  - intros handler t v e _ _ Ht Hd. split; [discriminate|].
    intros (handler' & t' & v' & app' & _ & Ht' & Hd' & _). congruence.
  - intros handler t v app' e _ Hh Ht Hd Hcall. split; [discriminate|].
    intros (handler' & t' & v' & app'' & Hh' & Ht' & Hd' & Hcall').
    assert (handler' = handler) as -> by congruence.
    assert (t' = t) as -> by congruence.
    assert (v' = v) as -> by congruence.
    congruence.
  - intros handler t v app' _ Hh Ht Hd Hcall. split; [|done].
    intros _. by exists handler, t, v, app'.
Qed.

(** The headers of a handler call in the trace. *)
Lemma handler_call_headers wh r app h hs ev :
  In (HandlerCall h hs ev) (w_trace (dispatch wh r app)) →
  hs = {[ "X-Event-Key" := Header_Get (Header r) "X-Event-Key" ]}.
Proof.
  apply serve_cases; cbn [w_trace]; intros.
  all: try (hook_cases wh; intuition discriminate).
  all: hook_cases wh; intuition (try discriminate); simplify_eq; done.
Qed.

(** A handler is only ever called as the registry's entry for the request's
    event key, with a payload of the type the table gives for that key,
    holding what the decoder made of the body from the zero value, and with
    headers that hold the event key alone. *)
Theorem handler_call_matches_registry wh r app h hs ev :
  In (HandlerCall h hs ev) (w_trace (dispatch wh r app)) →
  let k := Header_Get (Header r) "X-Event-Key" in
  k ≠ EmptyString
  ∧ GoMap.index (handlers wh) k = Some h
  ∧ eventTypeMap !! k = Some (ev_type ev)
  ∧ json_Decode (Body r) (ev_type ev) (zero (ev_type ev)) = (ev_value ev, None)
  ∧ hs = {[ "X-Event-Key" := k ]}
  ∧ count is_HandlerCall (w_trace (dispatch wh r app)) = 1%nat.
Proof.
  apply serve_cases; cbn [w_trace]; intros.
  all: try (hook_cases wh; intuition discriminate).
  all: hook_cases wh; intuition (try discriminate); simplify_eq; done.
Qed.

(** When [LogOnError] is called it is called once, on a Webhook that has it
    set, with no arguments after the message, and the response that follows
    at once is the 400 with that same message. *)
Theorem LogOnError_gets_response_message wh r app format a :
  In (LogOnErrorCall format a) (w_trace (dispatch wh r app)) →
  let w' := dispatch wh r app in
  a = []
  ∧ is_Some (LogOnError wh)
  ∧ Code (w_resp w') = StatusBadRequest
  ∧ RespBody (w_resp w') = format +:+ newline
  ∧ count is_LogOnErrorCall (w_trace w') = 1%nat
  ∧ ∃ pre, w_trace w' = pre ++ [LogOnErrorCall format []; HttpError format StatusBadRequest].
Proof.
  apply serve_cases; cbn [w_trace w_resp Code RespBody]; intros.
  all: try (exfalso; cbn in *; intuition discriminate).
  all: unfold count, diagnostics in *; destruct (LogOnError wh) eqn:Hlog;
    cbn in *; [|exfalso; intuition discriminate].
  all: intuition (try discriminate); simplify_eq; try done.
  all: first [ by exists [] | by eexists [_] | by eexists [_; _]
             | by eexists [_; _; _; _; _] ].
Qed.

(** Of the request's headers, only X-Event-Key reaches the handler: under
    any other name, X-Hook-UUID included, its header map holds nothing. *)
Theorem handler_sees_only_event_key wh r app h hs ev name :
  In (HandlerCall h hs ev) (w_trace (dispatch wh r app)) →
  name ≠ "X-Event-Key" →
  hs !! name = None
  ∧ hs !! "X-Hook-UUID" = None
  ∧ hs !! "X-Event-Key" = Some (Header_Get (Header r) "X-Event-Key")
  ∧ dom hs = {[ "X-Event-Key" ]}.
Proof.
  intros Hin Hname.
  rewrite (handler_call_headers wh r app h hs ev Hin).
  split; [apply lookup_singleton_ne; congruence|].
  split; [by apply lookup_singleton_ne|].
  split; [apply lookup_singleton_eq|apply dom_singleton_L].
Qed.

(** ServeHTTP reads two things of the request: the first value of
    X-Event-Key and the body.  Requests that agree on these are served
    alike, whatever their other headers. *)
Theorem serve_reads_event_key_and_body wh r1 r2 app :
  Header_Get (Header r1) "X-Event-Key" = Header_Get (Header r2) "X-Event-Key" →
  Body r1 = Body r2 →
  dispatch wh r1 app = dispatch wh r2 app.
Proof.
  intros Hkey Hbody. unfold serve, ServeHTTP.
  by rewrite !extract_headers_eq, Hkey, Hbody.
Qed.

(** The application changes only through a handler or [LogOnError]: a
    request that reaches neither leaves it as it was. *)
Theorem app_untouched_without_callbacks wh r app :
  count is_HandlerCall (w_trace (dispatch wh r app)) = 0%nat →
  count is_LogOnErrorCall (w_trace (dispatch wh r app)) = 0%nat →
  w_app (dispatch wh r app) = app.
Proof.
  apply serve_cases; cbn [w_trace w_app]; intros.
  all: try reflexivity.
  all: hook_cases wh; try discriminate; reflexivity.
Qed.

End Dispatch.

(** ** Further properties of the registry and of the payload-type table *)

Section Registry.
Context {App Value : Type}.
Variable zero : EventType → Value.
Variable json_Decode : string → EventType → Value → Value * error.

Implicit Types (wh : Webhook App Value) (r : Request) (app : App).
Implicit Types (k : string) (h : WebhookHandler App Value).
Implicit Types (m : gmap string (WebhookHandler App Value)).
Implicit Types (regs : list (string * WebhookHandler App Value)).

Local Abbreviation dispatch := (serve zero json_Decode).

Lemma HandleAll_registry wh m regs :
  handlers wh = Some m →
  HandleAll wh regs
  = Returns {| LogOnError := LogOnError wh;
               handlers := Some (list_to_map (reverse regs) ∪ m) |}.
Proof.
  revert wh m. induction regs as [|[k h] regs IH]; intros wh m Hm.
  - cbn. rewrite (left_id_L ∅ (∪)). destruct wh as [f hs]. cbn in *. by subst.
  - cbn [HandleAll]. unfold Handle. rewrite Hm. cbn [GoMap.assign].
    rewrite (IH {| LogOnError := LogOnError wh; handlers := Some (<[k := h]> m) |}
               (<[k := h]> m) eq_refl). cbn [LogOnError].
    do 3 f_equal.
    rewrite reverse_cons, list_to_map_app. cbn [list_to_map foldr uncurry].
    rewrite insert_empty, <- (assoc_L (∪)).
    by rewrite <- insert_union_singleton_l.
Qed.

(** Any run of Handle calls on a Webhook with a non-nil registry returns;
    it leaves [LogOnError] alone, and afterwards each key holds the handler
    of its last registration in the run, or what it held before when the
    run does not name it. *)
Theorem HandleAll_last_registration_wins wh m regs :
  handlers wh = Some m →
  ∃ wh',
    HandleAll wh regs = Returns wh'
    ∧ LogOnError wh' = LogOnError wh
    ∧ (∀ k h before after,
         regs = before ++ (k, h) :: after → k ∉ after.*1 →
         GoMap.index (handlers wh') k = Some h)
    ∧ (∀ k, k ∉ regs.*1 → GoMap.index (handlers wh') k = m !! k).
Proof.
  intros Hm. eexists. split; [by apply HandleAll_registry|].
  cbn [LogOnError handlers GoMap.index]. split; [reflexivity|]. split.
  - intros k h before after -> Hlast.
    rewrite reverse_app, reverse_cons, <- (assoc_L (++)), list_to_map_app.
    apply lookup_union_Some_l, lookup_union_Some_raw. right. split.
    + apply not_elem_of_list_to_map_1. by rewrite fmap_reverse, elem_of_reverse.
    + cbn [app list_to_map foldr uncurry]. apply lookup_insert_eq.
  - intros k Hk. apply lookup_union_r, not_elem_of_list_to_map_1.
    by rewrite fmap_reverse, elem_of_reverse.
Qed.

(** Registrations under different keys commute. *)
Theorem Handle_commutes wh m k1 k2 (h1 h2 : WebhookHandler App Value) :
  handlers wh = Some m → k1 ≠ k2 →
  HandleAll wh [(k1, h1); (k2, h2)] = HandleAll wh [(k2, h2); (k1, h1)]
  ∧ ∃ wh', HandleAll wh [(k1, h1); (k2, h2)] = Returns wh'
           ∧ GoMap.index (handlers wh') k1 = Some h1
           ∧ GoMap.index (handlers wh') k2 = Some h2.
Proof.
  intros Hm Hne. cbn [HandleAll]. unfold Handle. rewrite Hm.
  cbn [GoMap.assign handlers LogOnError]. split.
  - by rewrite insert_insert_ne.
  - eexists. split; [reflexivity|]. cbn [handlers GoMap.index]. split.
    + by rewrite lookup_insert_ne, lookup_insert_eq.
    + apply lookup_insert_eq.
Qed.

(** ServeHTTP uses two things of the Webhook: [LogOnError] and the
    registry's entry for the request's event key. *)
Lemma serve_ext wh1 wh2 r app :
  LogOnError wh1 = LogOnError wh2 →
  GoMap.index (handlers wh1) (Header_Get (Header r) "X-Event-Key")
  = GoMap.index (handlers wh2) (Header_Get (Header r) "X-Event-Key") →
  dispatch wh1 r app = dispatch wh2 r app.
Proof.
  intros Hlog Hidx. symmetry.
  apply (serve_cases zero json_Decode wh1 r app); unfold diagnostics, after_diagnostics.
  - intros He. by rewrite (serve_missing zero json_Decode wh2 r app He), Hlog.
  - intros Hne Hh. rewrite Hidx in Hh.
    by rewrite (serve_no_handler zero json_Decode wh2 r app _ eq_refl Hne Hh), Hlog.
  - intros handler Hne Hh Ht. rewrite Hidx in Hh.
    by rewrite (serve_unsupported zero json_Decode wh2 r app _ handler eq_refl Hne Hh Ht),
      Hlog.
  - intros handler t v e Hne Hh Ht Hd. rewrite Hidx in Hh.
    by rewrite (serve_decode_error zero json_Decode wh2 r app _ handler t v e
                  eq_refl Hne Hh Ht Hd).
  - intros handler t v app' e Hne Hh Ht Hd Hcall. rewrite Hidx in Hh.
    by rewrite (serve_handler zero json_Decode wh2 r app _ handler t v app' (Some e)
                  eq_refl Hne Hh Ht Hd Hcall), Hlog.
  - intros handler t v app' Hne Hh Ht Hd Hcall. rewrite Hidx in Hh.
    by rewrite (serve_handler zero json_Decode wh2 r app _ handler t v app' None
                  eq_refl Hne Hh Ht Hd Hcall).
Qed.

(** Registering a handler under one key changes nothing for requests that
    carry another key: they are served as before, step for step. *)
Theorem Handle_leaves_other_keys wh wh' k h r app :
  Handle wh k h = Returns wh' →
  Header_Get (Header r) "X-Event-Key" ≠ k →
  dispatch wh' r app = dispatch wh r app.
Proof.
  unfold Handle. destruct (handlers wh) as [m|] eqn:Hm; [|discriminate].
  cbn [GoMap.assign]. intros [= <-] Hne.
  apply serve_ext; cbn [LogOnError handlers]; [reflexivity|].
  rewrite Hm. cbn [GoMap.index]. by apply lookup_insert_ne.
Qed.

(** The zero value serves every request exactly as the result of NewWebhook
    does; more generally a nil registry serves as an empty one. *)
Theorem zero_value_serves_like_NewWebhook f r app :
  dispatch Webhook_zero r app = dispatch NewWebhook r app
  ∧ dispatch {| LogOnError := f; handlers := None |} r app
    = dispatch {| LogOnError := f; handlers := Some ∅ |} r app.
Proof.
  split; apply serve_ext; cbn [LogOnError handlers GoMap.index];
    try reflexivity; by rewrite lookup_empty.
Qed.

End Registry.

Lemma eventTypeMap_key k t :
  eventTypeMap !! k = Some t →
  k = match t with
      | RepoPushEvent => "repo:push"
      | RepoForkEvent => "repo:fork"
      | RepoCommitCommentCreatedEvent => "repo:commit_comment_created"
      | RepoCommitStatusCreatedEvent => "repo:commit_status_created"
      | RepoCommitStatusUpdatedEvent => "repo:commit_status_updated"
      | IssueCreatedEvent => "issue:created"
      | IssueUpdatedEvent => "issue:updated"
      | IssueCommentCreatedEvent => "issue:comment_created"
      | PullRequestCreatedEvent => "pullrequest:created"
      | PullRequestUpdatedEvent => "pullrequest:updated"
      | PullRequestApprovedEvent => "pullrequest:approved"
      | PullRequestApprovalRemovedEvent => "pullrequest:unapproved"
      | PullRequestMergedEvent => "pullrequest:fulfilled"
      | PullRequestDeclinedEvent => "pullrequest:rejected"
      | PullRequestCommentCreatedEvent => "pullrequest:comment_created"
      | PullRequestCommentUpdatedEvent => "pullrequest:comment_updated"
      | PullRequestCommentDeletedEvent => "pull_request:comment_deleted"
      end.
Proof.
  intros Hk. unfold eventTypeMap in Hk. apply elem_of_list_to_map_2 in Hk.
  repeat (apply elem_of_cons in Hk as [Hk|Hk]; [by simplify_eq|]).
  by apply elem_of_nil in Hk.
Qed.

(** The table pairs keys and payload types one to one: a payload type is
    listed under a single key, and each of the seventeen types is listed. *)
Theorem eventTypeMap_one_key_per_type k1 k2 t :
  eventTypeMap !! k1 = Some t → eventTypeMap !! k2 = Some t →
  k1 = k2 ∧ ∀ t', ∃ k', eventTypeMap !! k' = Some t'.
Proof.
  intros H1 H2. split.
  - by rewrite (eventTypeMap_key k1 t H1), (eventTypeMap_key k2 t H2).
  - intros t'.
    destruct t';
      [ exists "repo:push"
      | exists "repo:fork"
      | exists "repo:commit_comment_created"
      | exists "repo:commit_status_created"
      | exists "repo:commit_status_updated"
      | exists "issue:created"
      | exists "issue:updated"
      | exists "issue:comment_created"
      | exists "pullrequest:created"
      | exists "pullrequest:updated"
      | exists "pullrequest:approved"
      | exists "pullrequest:unapproved"
      | exists "pullrequest:fulfilled"
      | exists "pullrequest:rejected"
      | exists "pullrequest:comment_created"
      | exists "pullrequest:comment_updated"
      | exists "pull_request:comment_deleted" ];
      vm_compute; reflexivity.
Qed.

(** ** The further properties on the small application *)

Section MoreRuns.
Import Fixture.

Local Abbreviation push := (record "push" None).
Local Abbreviation fork := (record "fork" (Some "rejected")).

Lemma handler_call_matches_registry_witness :
  In (HandlerCall push {[ "X-Event-Key" := "repo:push" ]}
        {| ev_type := RepoPushEvent; ev_value := "{}" |})
     (w_trace (run wh (request "repo:push" "{}") app0))
  ∧ GoMap.index (handlers wh) "repo:push" = Some push.
Proof.
  assert (In (HandlerCall push {[ "X-Event-Key" := "repo:push" ]}
                {| ev_type := RepoPushEvent; ev_value := "{}" |})
             (w_trace (run wh (request "repo:push" "{}") app0))) as Hin.
  { vm_compute. do 4 right. left. reflexivity. }
  split; [exact Hin|].
  exact (proj1 (proj2 (handler_call_matches_registry zero json_Decode wh
                         (request "repo:push" "{}") app0 _ _ _ Hin))).
Defined.

Lemma LogOnError_gets_response_message_witness :
  In (LogOnErrorCall "Missing X-Event-Key" [])
     (w_trace (run wh (request "" "{}") app0))
  ∧ RespBody (w_resp (run wh (request "" "{}") app0))
    = "Missing X-Event-Key" +:+ newline.
Proof.
  assert (In (LogOnErrorCall "Missing X-Event-Key" [])
             (w_trace (run wh (request "" "{}") app0))) as Hin.
  { vm_compute. left. reflexivity. }
  split; [exact Hin|].
  exact (proj1 (proj2 (proj2 (proj2
           (LogOnError_gets_response_message zero json_Decode wh
              (request "" "{}") app0 _ _ Hin))))).
Defined.

Lemma handler_sees_only_event_key_witness :
  let r := {| Header := {[ "X-Event-Key" := ["repo:push"];
                           "X-Hook-UUID" := ["0b6e5a2c"] ]};
              Body := "{}" |} in
  Header_Get (Header r) "X-Hook-UUID" = "0b6e5a2c"
  ∧ In (HandlerCall push {[ "X-Event-Key" := "repo:push" ]}
          {| ev_type := RepoPushEvent; ev_value := "{}" |})
       (w_trace (run wh r app0))
  ∧ ({[ "X-Event-Key" := "repo:push" ]} : Headers) !! "X-Request-UUID" = None.
Proof.
  intros r.
  assert (In (HandlerCall push {[ "X-Event-Key" := "repo:push" ]}
                {| ev_type := RepoPushEvent; ev_value := "{}" |})
             (w_trace (run wh r app0))) as Hin.
  { vm_compute. do 4 right. left. reflexivity. }
  split; [reflexivity|]. split; [exact Hin|].
  apply (handler_sees_only_event_key zero json_Decode wh r app0 _ _ _
           "X-Request-UUID" Hin).
  discriminate.
Defined.

Lemma serve_reads_event_key_and_body_witness :
  run wh {| Header := {[ "X-Event-Key" := ["repo:push"; "repo:fork"];
                         "X-Hook-UUID" := ["0b6e5a2c"] ]};
            Body := "{}" |} app0
  = run wh (request "repo:push" "{}") app0.
Proof.
  apply (serve_reads_event_key_and_body zero json_Decode wh); reflexivity.
Defined.

Lemma app_untouched_without_callbacks_witness :
  w_app (run quiet (request "issue:created" "{}") app0) = app0.
Proof.
  apply (app_untouched_without_callbacks zero json_Decode quiet
           (request "issue:created" "{}") app0);
    vm_compute; reflexivity.
Defined.

Lemma HandleAll_last_registration_wins_witness :
  ∃ wh',
    HandleAll (@NewWebhook app_state string)
      [("repo:push", fork); ("repo:fork", fork); ("repo:push", push)]
    = Returns wh'
    ∧ GoMap.index (handlers wh') "repo:push" = Some push
    ∧ GoMap.index (handlers wh') "issue:created" = None.
Proof.
  destruct (HandleAll_last_registration_wins (@NewWebhook app_state string) ∅
              [("repo:push", fork); ("repo:fork", fork); ("repo:push", push)]
              eq_refl)
    as (wh' & Hall & _ & Hlast & Hrest).
  exists wh'. split; [exact Hall|]. split.
  - apply (Hlast "repo:push" push [("repo:push", fork); ("repo:fork", fork)] []);
      [reflexivity|]. cbn. apply not_elem_of_nil.
  - rewrite Hrest; [reflexivity|]. cbn. rewrite !not_elem_of_cons.
    repeat split; try discriminate. apply not_elem_of_nil.
Defined.

Lemma Handle_commutes_witness :
  HandleAll (@NewWebhook app_state string) [("repo:push", push); ("repo:fork", fork)]
  = HandleAll NewWebhook [("repo:fork", fork); ("repo:push", push)].
Proof.
  apply (Handle_commutes (@NewWebhook app_state string) ∅ "repo:push" "repo:fork"
           push fork eq_refl).
  discriminate.
Defined.

Lemma Handle_leaves_other_keys_witness :
  Handle wh "issue:created" push
  = Returns {| LogOnError := LogOnError wh;
               handlers := Some (<["issue:created" := push]>
                                   (default ∅ (handlers wh))) |}
  ∧ run {| LogOnError := LogOnError wh;
           handlers := Some (<["issue:created" := push]>
                               (default ∅ (handlers wh))) |}
        (request "repo:fork" "{}") app0
    = run wh (request "repo:fork" "{}") app0.
Proof.
  split; [reflexivity|].
  apply (Handle_leaves_other_keys zero json_Decode wh _ "issue:created" push
           (request "repo:fork" "{}") app0);
    [reflexivity|discriminate].
Defined.

Lemma eventTypeMap_one_key_per_type_witness :
  eventTypeMap !! "pullrequest:fulfilled" = Some PullRequestMergedEvent
  ∧ ∀ t, ∃ k, eventTypeMap !! k = Some t.
Proof.
  split; [vm_compute; reflexivity|].
  apply (eventTypeMap_one_key_per_type "pullrequest:fulfilled"
           "pullrequest:fulfilled" PullRequestMergedEvent);
    vm_compute; reflexivity.
Defined.

End MoreRuns.
